(** * NLUService.extract_event_info (src/nlu_service.py)

    A shallow embedding of the event extractor: the reply of the completion
    endpoint is decoded, its [start_datetime] is normalised to a zoned
    datetime and the optional fields are defaulted.

    The operations of the libraries the service calls (the completion
    endpoint, [json.loads], [dateutil.parser.parse], the system clock and the
    rules of the configured pytz zone) are collaborators held in an
    environment record; the code of the service itself is embedded as it is
    written, in a state-and-exception monad over the effects it performs. *)

From Stdlib Require Import ZArith Ascii String List Lia.
From stdpp Require Import base option gmap strings fin_maps.

Set Warnings "-register-all".
Local Open Scope Z_scope.
Local Open Scope string_scope.

(** ** Python values *)

(** [tzinfo]: the zone attached to an aware datetime, by its name and its
    offset from UTC in seconds. *)
Record tzinfo := mk_tzinfo { tzname : string; utcoffset : Z }.

(** [datetime.datetime]: the wall-clock reading, in microseconds counted from
    0001-01-01T00:00:00, and the attached zone ([None] for a naive value).
    Python keeps the wall clock between [datetime.min] and [datetime.max]
    (years 1 to 9999), and an operation of the libraries that would leave
    this range raises [OverflowError] instead of returning. *)
Record datetime := mk_datetime { wall : Z; dt_tzinfo : option tzinfo }.

Definition one_day : Z := 86400 * 1000000.

(** The wall clocks of [datetime.min] and of [datetime.max]
    (9999-12-31T23:59:59.999999, the last microsecond of day 3652059). *)
Definition datetime_min_wall : Z := 0.
Definition datetime_max_wall : Z := 3652059 * one_day - 1.

Definition wall_in_range (t : Z) : bool :=
  Z.leb datetime_min_wall t && Z.leb t datetime_max_wall.

(** [datetime.timedelta], in microseconds. *)
Record timedelta := mk_timedelta { td_microseconds : Z }.

Definition timedelta_days (days : Z) : timedelta :=
  mk_timedelta (days * 86400 * 1000000).

(** [dt + td]: the wall clock moves, the zone object is kept as it is. The
    service adds to a reading of the system clock only (line 99), which lies
    far from year 9999: the sum is taken without the check of the range. *)
Definition datetime_add (dt : datetime) (td : timedelta) : datetime :=
  mk_datetime (wall dt + td_microseconds td) (dt_tzinfo dt).

(** A datetime is aware when it carries a zone. *)
Definition is_aware (dt : datetime) : bool :=
  match dt_tzinfo dt with Some _ => true | None => false end.

(** The point on the UTC time line an aware datetime denotes. *)
Definition utc_instant (dt : datetime) : option Z :=
  match dt_tzinfo dt with
  | Some tz => Some (wall dt - utcoffset tz * 1000000)
  | None => None
  end.

(** The objects that [json.loads] produces, and the [datetime] objects that
    the extractor stores into the decoded dict. A float is kept by its
    literal: the extractor never computes with one. *)
Inductive pyobj :=
  | PyNone
  | PyBool (b : bool)
  | PyInt (z : Z)
  | PyFloat (literal : string)
  | PyStr (s : string)
  | PyList (l : list pyobj)
  | PyDict (m : gmap string pyobj)
  | PyDatetime (d : datetime).

(** ** Exceptions *)

Inductive exc_class :=
  | JSONDecodeError
  | ValueError
  | TypeError
  | AttributeError
  | IndexError
  | KeyError
  | OverflowError
  | ParserError
  | APIConnectionError
  | AuthenticationError
  | APIStatusError
  | OtherException (name : string).

Record exception := mk_exception { exc_type : exc_class; exc_args : string }.

(** [isinstance(e, json.JSONDecodeError)]: the only test the handlers of
    [extract_event_info] make on an exception. *)
Definition is_JSONDecodeError (e : exception) : bool :=
  match exc_type e with JSONDecodeError => true | _ => false end.

Inductive outcome (A : Type) :=
  | Return (a : A)
  | Raise (e : exception).
Arguments Return {A} a.
Arguments Raise {A} e.

(** ** The collaborators of the service *)

(** The prompt of [_create_prompt] is a fixed template with three holes; it is
    kept by what fills them: the clock reading as [strftime] prints it (the
    wall clock in whole seconds, without zone), the name of the configured
    zone and the text of the user. *)
Record prompt := mk_prompt {
  current_date_str : Z;
  prompt_timezone : string;
  prompt_text : string
}.

(** The request sent to [client.chat.completions.create]. *)
Record chat_request := mk_chat_request {
  model : string;
  system_content : string;
  user_content : prompt;
  temperature : string;
  response_format : string
}.

(** The response of the endpoint: [choices[i].message.content], which the
    client types as an optional string. *)
Record chat_response := mk_chat_response { choices : list (option string) }.

(** What the service is configured with and what it calls.
    - [TIMEZONE] is [Config.TIMEZONE]; [zone_offset_at_utc] and
      [zone_offset_at_wall] are the rules of that pytz zone: the offset from
      UTC (seconds) in force at a UTC instant, and what [localize] does with
      a wall-clock reading: the offset it chooses, or the exception it raises
      (pytz raises [OverflowError] near the ends of the range of
      [datetime]);
    - [system_clock n] is the [n]-th reading of the system clock (UTC,
      microseconds);
    - [completions n req] is the answer of the endpoint to the [n]-th request;
    - [json_decode] is [json.loads] on a string: the decoded object, or the
      detail of the [JSONDecodeError];
    - [dateutil_parse] is [dateutil.parser.parse] on a string. *)
Record Env := mk_Env {
  TIMEZONE : string;
  zone_offset_at_utc : Z -> Z;
  zone_offset_at_wall : Z -> outcome Z;
  system_clock : nat -> Z;
  completions : nat -> chat_request -> outcome chat_response;
  json_decode : string -> string + pyobj;
  dateutil_parse : string -> outcome datetime
}.

(** The records written to the module logger, one constructor per call site. *)
Inductive log_record :=
  | ErrorDateParse (dt_str : pyobj) (e : exception)
  | InfoExtracted (result : pyobj)
  | ErrorJSON (e : exception)
  | ErrorProcessing (e : exception).

(** The effects of a call: how often the clock was read, the requests sent to
    the endpoint, the arguments handed to the date parser, and the log. *)
Record world := mk_world {
  clock_reads : nat;
  api_calls : list chat_request;
  parse_calls : list pyobj;
  log : list log_record
}.

(** ** State and exceptions *)

Definition M (A : Type) : Type := world -> outcome A * world.

Definition ret {A} (a : A) : M A := fun w => (Return a, w).

Definition raise {A} (e : exception) : M A := fun w => (Raise e, w).

Definition bind {A B} (c : M A) (k : A -> M B) : M B :=
  fun w =>
    match c w with
    | (Return a, w') => k a w'
    | (Raise e, w') => (Raise e, w')
    end.

(** [try: body except Exception as e: handler e]. *)
Definition try_except {A} (body : M A) (handler : exception -> M A) : M A :=
  fun w =>
    match body w with
    | (Return a, w') => (Return a, w')
    | (Raise e, w') => handler e w'
    end.

Definition lift {A} (o : outcome A) : M A := fun w => (o, w).

Declare Scope py_scope.
Delimit Scope py_scope with py.
Notation "x <- c1 ;; c2" := (bind c1 (fun x => c2))
  (at level 100, c1 at next level, right associativity) : py_scope.
Notation "c1 ;;; c2" := (bind c1 (fun _ => c2))
  (at level 100, right associativity) : py_scope.
Local Open Scope py_scope.

(** ** Operations on Python objects *)

(** [needle in hay] on two strings. *)
Fixpoint is_substring (needle hay : string) : bool :=
  String.prefix needle hay ||
  match hay with
  | EmptyString => false
  | String _ rest => is_substring needle rest
  end.

Definition type_error (what : string) : exception := mk_exception TypeError what.

(** [key in obj] for a string [key]: membership among the keys of a dict,
    among the elements of a list, as a substring of a string; the other
    objects are not iterable. *)
Definition py_contains (obj : pyobj) (key : string) : outcome bool :=
  match obj with
  | PyDict m => Return (match m !! key with Some _ => true | None => false end)
  | PyList l =>
      Return (existsb (fun x => match x with
                                | PyStr s => String.eqb s key
                                | _ => false
                                end) l)
  | PyStr s => Return (is_substring key s)
  | _ => Raise (type_error "argument is not iterable")
  end.

(** [obj[key]] for a string [key]. *)
Definition py_getitem (obj : pyobj) (key : string) : outcome pyobj :=
  match obj with
  | PyDict m =>
      match m !! key with
      | Some v => Return v
      | None => Raise (mk_exception KeyError key)
      end
  | PyList _ | PyStr _ => Raise (type_error "indices must be integers")
  | _ => Raise (type_error "object is not subscriptable")
  end.

(** [obj[key] = v] for a string [key]. *)
Definition py_setitem (obj : pyobj) (key : string) (v : pyobj) : outcome pyobj :=
  match obj with
  | PyDict m => Return (PyDict (<[key:=v]> m))
  | PyList _ => Raise (type_error "indices must be integers")
  | _ => Raise (type_error "object does not support item assignment")
  end.

(** [d.setdefault(key, v)] on a dict: it writes only where the key is
    missing. *)
Definition dict_setdefault (m : gmap string pyobj) (key : string) (v : pyobj)
  : gmap string pyobj :=
  match m !! key with
  | Some _ => m
  | None => <[key:=v]> m
  end.

(** [obj.setdefault(key, v)]: only a dict has the method. *)
Definition py_setdefault (obj : pyobj) (key : string) (v : pyobj) : outcome pyobj :=
  match obj with
  | PyDict m => Return (PyDict (dict_setdefault m key v))
  | _ => Raise (mk_exception AttributeError "setdefault")
  end.

(** [obj.get(key)] as the caller of the service reads a field of the returned
    record: [None] when the key is missing. *)
Definition field (obj : pyobj) (key : string) : option pyobj :=
  match obj with
  | PyDict m => m !! key
  | _ => None
  end.

(** ** The service *)

Section NLUService.

Context (env : Env).

(** [datetime.now(self.timezone)] at the [n]-th reading of the clock: the UTC
    reading shifted by the offset in force, with the zone attached. *)
Definition datetime_now (n : nat) : datetime :=
  let utc := system_clock env n in
  let off := zone_offset_at_utc env utc in
  mk_datetime (utc + off * 1000000) (Some (mk_tzinfo (TIMEZONE env) off)).

(** [self.timezone.localize(dt)]: refuses an aware value; a naive one keeps its
    wall clock and gets the zone attached, with the offset the zone has at
    that local time, unless the zone raises on that wall clock. *)
Definition localize (dt : datetime) : outcome datetime :=
  match dt_tzinfo dt with
  | Some _ => Raise (mk_exception ValueError "Not naive datetime (tzinfo is already set)")
  | None =>
      match zone_offset_at_wall env (wall dt) with
      | Return off =>
          Return (mk_datetime (wall dt) (Some (mk_tzinfo (TIMEZONE env) off)))
      | Raise e => Raise e
      end
  end.

(** [dt.strftime("%Y-%m-%d %H:%M:%S")]: the wall clock, to the second. *)
Definition strftime (dt : datetime) : Z := wall dt / 1000000.

Definition _get_current_datetime : M datetime :=
  fun w =>
    (Return (datetime_now (clock_reads w)),
     mk_world (S (clock_reads w)) (api_calls w) (parse_calls w) (log w)).

Definition _create_prompt (text : string) : M prompt :=
  current_datetime <- _get_current_datetime ;;
  let current_date_str := strftime current_datetime in
  ret (mk_prompt current_date_str (TIMEZONE env) text).

(** [self.client.chat.completions.create(...)]: one request to the endpoint. *)
Definition chat_completions_create (req : chat_request) : M chat_response :=
  fun w =>
    (completions env (length (api_calls w)) req,
     mk_world (clock_reads w) (api_calls w ++ [req]) (parse_calls w) (log w)).

(** [response.choices[0].message.content]. *)
Definition first_message_content (response : chat_response) : outcome (option string) :=
  match choices response with
  | content :: _ => Return content
  | [] => Raise (mk_exception IndexError "list index out of range")
  end.

(** [json.loads(result_text)]. *)
Definition json_loads (result_text : option string) : outcome pyobj :=
  match result_text with
  | None => Raise (type_error "the JSON object must be str, bytes or bytearray, not NoneType")
  | Some s =>
      match json_decode env s with
      | inl detail => Raise (mk_exception JSONDecodeError detail)
      | inr obj => Return obj
      end
  end.

(** [parser.parse(dt_str)]: the parser takes a string. *)
Definition parser_parse_result (dt_str : pyobj) : outcome datetime :=
  match dt_str with
  | PyStr s => dateutil_parse env s
  | _ => Raise (type_error "Parser must be a string or character stream")
  end.

Definition parser_parse (dt_str : pyobj) : M datetime :=
  fun w =>
    (parser_parse_result dt_str,
     mk_world (clock_reads w) (api_calls w) (parse_calls w ++ [dt_str]) (log w)).

Definition logger_write (r : log_record) : M unit :=
  fun w =>
    (Return tt,
     mk_world (clock_reads w) (api_calls w) (parse_calls w) (log w ++ [r])).

Definition system_message : string :=
  "Ты помощник для создания событий в календаре. Всегда возвращай только валидный JSON.".

Definition could_not_process : string :=
  "Не удалось обработать запрос. Попробуйте сформулировать иначе.".

Definition completion_request (p : prompt) : chat_request :=
  mk_chat_request "gpt-4o-mini" system_message p "0.3" "json_object".

(** Lines 88-99: the normalisation of [start_datetime]. *)
Definition normalize_start_datetime (result : pyobj) : M pyobj :=
  has_start <- lift (py_contains result "start_datetime") ;;
  if has_start : bool then
    dt_str <- lift (py_getitem result "start_datetime") ;;
    try_except
      (dt <- parser_parse dt_str ;;
       dt <- lift (match dt_tzinfo dt with
                   | None => localize dt
                   | Some _ => Return dt
                   end) ;;
       lift (py_setitem result "start_datetime" (PyDatetime dt)))
      (fun e =>
         logger_write (ErrorDateParse dt_str e) ;;;
         now <- _get_current_datetime ;;
         lift (py_setitem result "start_datetime"
                 (PyDatetime (datetime_add now (timedelta_days 1)))))
  else ret result.

(** Lines 101-104: the defaults. *)
Definition set_defaults (result : pyobj) : M pyobj :=
  result <- lift (py_setdefault result "action" (PyStr "create_event")) ;;
  result <- lift (py_setdefault result "duration_minutes" (PyInt 60)) ;;
  lift (py_setdefault result "description" PyNone).

(** Lines 72-107: the [try] block of [extract_event_info]. *)
Definition extract_event_info_try (text : string) : M pyobj :=
  prompt <- _create_prompt text ;;
  response <- chat_completions_create (completion_request prompt) ;;
  result_text <- lift (first_message_content response) ;;
  result <- lift (json_loads result_text) ;;
  result <- normalize_start_datetime result ;;
  result <- set_defaults result ;;
  logger_write (InfoExtracted result) ;;;
  ret result.

(** Lines 109-114: the two [except] clauses. *)
Definition extract_event_info_except (e : exception) : M pyobj :=
  if is_JSONDecodeError e then
    logger_write (ErrorJSON e) ;;;
    raise (mk_exception ValueError could_not_process)
  else
    logger_write (ErrorProcessing e) ;;;
    raise e.

Definition extract_event_info (text : string) : M pyobj :=
  try_except (extract_event_info_try text) extract_event_info_except.

(** The request that a call started in world [w] sends, and what the endpoint
    answers to it: the content of the first choice, or the exception of the
    endpoint call. *)
Definition request_of (text : string) (w : world) : chat_request :=
  completion_request
    (mk_prompt (strftime (datetime_now (clock_reads w))) (TIMEZONE env) text).

Definition model_reply (text : string) (w : world) : outcome (option string) :=
  match completions env (length (api_calls w)) (request_of text w) with
  | Return response => first_message_content response
  | Raise e => Raise e
  end.

(** The dict after lines 101-104. *)
Definition with_defaults (m : gmap string pyobj) : gmap string pyobj :=
  dict_setdefault
    (dict_setdefault
       (dict_setdefault m "action" (PyStr "create_event"))
       "duration_minutes" (PyInt 60))
    "description" PyNone.

(** The fallback of line 99, for the [n]-th reading of the clock. *)
Definition fallback_start (n : nat) : datetime :=
  datetime_add (datetime_now n) (timedelta_days 1).

(** The world once the prompt is built and the request is sent. *)
Definition after_request (text : string) (w : world) : world :=
  mk_world (S (clock_reads w)) (api_calls w ++ [request_of text w])
    (parse_calls w) (log w).

(** Lines 93-94 on a parsed value: an aware one is kept, a naive one is
    localized, which may raise. *)
Definition zoned (dt : datetime) : outcome datetime :=
  match dt_tzinfo dt with
  | None => localize dt
  | Some _ => Return dt
  end.

(** Lines 92-94 on the value of the reply: the datetime that line 95 stores,
    or the exception that line 96 catches. *)
Definition parsed_start (v : pyobj) : outcome datetime :=
  match parser_parse_result v with
  | Return dt => zoned dt
  | Raise e => Raise e
  end.

(** The world at the end of a call that returns [result]: [reads] readings of
    the clock, one request, the parser called on [parsed], and [logged]
    before the final information record. *)
Definition final_world (text : string) (w : world) (reads : nat)
    (parsed : list pyobj) (logged : list log_record) (result : pyobj) : world :=
  mk_world (reads + clock_reads w) (api_calls w ++ [request_of text w])
    (parse_calls w ++ parsed) (log w ++ logged ++ [InfoExtracted result]).

(** The decoded dict of a reply after lines 88-99, in a call that had read
    the clock [reads] times when it started. *)
Definition normalized (m : gmap string pyobj) (reads : nat) : gmap string pyobj :=
  match m !! "start_datetime" with
  | None => m
  | Some v =>
      match parsed_start v with
      | Return d => <["start_datetime" := PyDatetime d]> m
      | Raise _ => <["start_datetime" := PyDatetime (fallback_start (S reads))]> m
      end
  end.

End NLUService.

(** ** Concrete runs *)

Module Scenario.

(** Calendar arithmetic of the [datetime] module, to write dates down. *)
Definition is_leap (year : Z) : bool :=
  Z.eqb (year mod 4) 0 && (negb (Z.eqb (year mod 100) 0) || Z.eqb (year mod 400) 0).

Definition days_before_year (year : Z) : Z :=
  let y := year - 1 in y * 365 + y / 4 - y / 100 + y / 400.

Definition days_before_month (year month : Z) : Z :=
  nth (Z.to_nat month) [0; 0; 31; 59; 90; 120; 151; 181; 212; 243; 273; 304; 334] 0
  + (if Z.ltb 2 month && is_leap year then 1 else 0).

Definition ymd2ord (year month day : Z) : Z :=
  days_before_year year + days_before_month year month + day.

(** The wall clock of [datetime(year, month, day, hour, minute, second)]. *)
Definition wall_clock (year month day hour minute second : Z) : Z :=
  (((ymd2ord year month day - 1) * 24 + hour) * 60 + minute) * 60 * 1000000
  + second * 1000000.

Definition naive (year month day hour minute second : Z) : datetime :=
  mk_datetime (wall_clock year month day hour minute second) None.

Definition moscow : tzinfo := mk_tzinfo "Europe/Moscow" 10800.

Definition quoted (s : string) : string :=
  String "034"%char (s ++ String "034"%char EmptyString).

(** [localize] of a pytz zone with transitions looks one day before and one
    day after the wall clock, and so raises [OverflowError] within a day of
    either end of the range of [datetime]; elsewhere the offset is UTC+3. *)
Definition moscow_localize (t : Z) : outcome Z :=
  if wall_in_range (t - one_day) && wall_in_range (t + one_day)
  then Return 10800
  else Raise (mk_exception OverflowError "date value out of range").

(** An environment in the zone Europe/Moscow (UTC+3 throughout): the clock
    shows [start] (UTC) at the first reading and [latency] more at each later
    one, the endpoint answers every request with [answer], and the two
    parsers are given by their tables. *)
Definition environment (start latency : Z) (answer : outcome chat_response)
    (decode : string -> string + pyobj) (parse : string -> outcome datetime) : Env :=
  mk_Env "Europe/Moscow" (fun _ => 10800) moscow_localize
    (fun n => start + Z.of_nat n * latency)
    (fun _ _ => answer) decode parse.

Definition replies (content : string) : outcome chat_response :=
  Return (mk_chat_response [Some content]).

Definition decodes (content : string) (obj : pyobj) : string -> string + pyobj :=
  fun s => if String.eqb s content then inr obj else inl "Expecting value".

Definition parses (table : list (string * datetime)) : string -> outcome datetime :=
  fun s =>
    match find (fun entry => String.eqb (fst entry) s) table with
    | Some entry => Return (snd entry)
    | None => Raise (mk_exception ParserError "Unknown string format")
    end.

Definition idle : world := mk_world 0 [] [] [].

(** 2025-01-14T09:00:00 in Moscow is 06:00:00 UTC. *)
Definition nine_o_clock_utc : Z := wall_clock 2025 1 14 6 0 0.

Definition user_text : string := "Поставь встречу с клиентом на завтра в 15:00".

(** The reply of the first scenario of the specification. *)
Definition meeting_text : string :=
  "{" ++ quoted "action" ++ ":" ++ quoted "create_event" ++ ","
      ++ quoted "summary" ++ ":" ++ quoted "Встреча с клиентом" ++ ","
      ++ quoted "start_datetime" ++ ":" ++ quoted "2025-01-15T15:00:00" ++ ","
      ++ quoted "duration_minutes" ++ ":60}".

Definition meeting_dict : gmap string pyobj :=
  <["action" := PyStr "create_event"]>
  (<["summary" := PyStr "Встреча с клиентом"]>
  (<["start_datetime" := PyStr "2025-01-15T15:00:00"]>
  (<["duration_minutes" := PyInt 60]> ∅))).

Definition meeting_env : Env :=
  environment nine_o_clock_utc 2000000 (replies meeting_text)
    (decodes meeting_text (PyDict meeting_dict))
    (parses [("2025-01-15T15:00:00", naive 2025 1 15 15 0 0)]).

(** A reply whose date does not parse (second scenario of the specification). *)
Definition not_a_date_text : string :=
  "{" ++ quoted "summary" ++ ":" ++ quoted "Созвон" ++ ","
      ++ quoted "start_datetime" ++ ":" ++ quoted "not-a-date" ++ "}".

Definition not_a_date_dict : gmap string pyobj :=
  <["summary" := PyStr "Созвон"]> (<["start_datetime" := PyStr "not-a-date"]> ∅).

Definition not_a_date_env : Env :=
  environment nine_o_clock_utc 2000000 (replies not_a_date_text)
    (decodes not_a_date_text (PyDict not_a_date_dict)) (parses []).

(** A reply whose date is the first instant of [datetime]: the parser accepts
    it, [localize] does not. *)
Definition year_one_text : string :=
  "{" ++ quoted "summary" ++ ":" ++ quoted "Созвон" ++ ","
      ++ quoted "start_datetime" ++ ":" ++ quoted "0001-01-01T00:00:00" ++ "}".

Definition year_one_dict : gmap string pyobj :=
  <["summary" := PyStr "Созвон"]>
  (<["start_datetime" := PyStr "0001-01-01T00:00:00"]> ∅).

Definition year_one_env : Env :=
  environment nine_o_clock_utc 2000000 (replies year_one_text)
    (decodes year_one_text (PyDict year_one_dict))
    (parses [("0001-01-01T00:00:00", naive 1 1 1 0 0 0)]).

(** A reply that is the empty JSON object. *)
Definition empty_text : string := "{}".

Definition empty_env : Env :=
  environment nine_o_clock_utc 2000000 (replies empty_text)
    (decodes empty_text (PyDict ∅)) (parses []).

(** A reply whose action is none of the three of the prompt. *)
Definition archive_text : string :=
  "{" ++ quoted "action" ++ ":" ++ quoted "archive_event" ++ "}".

Definition archive_dict : gmap string pyobj :=
  <["action" := PyStr "archive_event"]> ∅.

Definition archive_env : Env :=
  environment nine_o_clock_utc 2000000 (replies archive_text)
    (decodes archive_text (PyDict archive_dict)) (parses []).

(** A reply that gives the three optional fields falsy or unusual values, and
    a field outside the schema. *)
Definition explicit_text : string :=
  "{" ++ quoted "action" ++ ":" ++ quoted "delete_event" ++ ","
      ++ quoted "duration_minutes" ++ ":0,"
      ++ quoted "description" ++ ":null,"
      ++ quoted "location" ++ ":" ++ quoted "office" ++ "}".

Definition explicit_dict : gmap string pyobj :=
  <["action" := PyStr "delete_event"]>
  (<["duration_minutes" := PyInt 0]>
  (<["description" := PyNone]>
  (<["location" := PyStr "office"]> ∅))).

Definition explicit_env : Env :=
  environment nine_o_clock_utc 2000000 (replies explicit_text)
    (decodes explicit_text (PyDict explicit_dict)) (parses []).

(** A reply that is cut short, and so is no JSON text. *)
Definition truncated_text : string := "{" ++ quoted "action" ++ ":".

Definition truncated_env : Env :=
  environment nine_o_clock_utc 2000000 (replies truncated_text)
    (fun _ => inl "Expecting value: line 1 column 11 (char 10)") (parses []).



(** A reply that is valid JSON but a number, not an object. *)
Definition number_env : Env :=
  environment nine_o_clock_utc 2000000 (replies "42")
    (decodes "42" (PyInt 42)) (parses []).

(** A response whose first choice has no content, and one without choices. *)
Definition silent_env : Env :=
  environment nine_o_clock_utc 2000000 (Return (mk_chat_response [None]))
    (fun _ => inl "Expecting value") (parses []).

Definition choiceless_env : Env :=
  environment nine_o_clock_utc 2000000 (Return (mk_chat_response []))
    (fun _ => inl "Expecting value") (parses []).

(** An endpoint call that itself fails on decoding what the server sent. *)
Definition garbled_error : exception :=
  mk_exception JSONDecodeError "Expecting value: line 1 column 1 (char 0)".

Definition garbled_env : Env :=
  environment nine_o_clock_utc 2000000 (Raise garbled_error)
    (fun _ => inl "Expecting value") (parses []).

(** A reply whose [start_datetime] is [null]. *)
Definition null_date_text : string :=
  "{" ++ quoted "summary" ++ ":" ++ quoted "Созвон" ++ ","
      ++ quoted "start_datetime" ++ ":null}".

Definition null_date_dict : gmap string pyobj :=
  <["summary" := PyStr "Созвон"]> (<["start_datetime" := PyNone]> ∅).

Definition null_date_env : Env :=
  environment nine_o_clock_utc 2000000 (replies null_date_text)
    (decodes null_date_text (PyDict null_date_dict)) (parses []).

End Scenario.

(** ** How a call unfolds *)

Section Unfolding.

Context (env : Env).

Lemma dict_setdefault_lookup (m : gmap string pyobj) (key key' : string) (v : pyobj) :
  dict_setdefault m key v !! key' =
  if decide (key = key') then Some (default v (m !! key)) else m !! key'.
Proof.
  unfold dict_setdefault.
  destruct (m !! key) as [x|] eqn:Hm.
  - case_decide; [subst; by rewrite Hm | done].
  - rewrite lookup_insert. by repeat case_decide.
Qed.

Lemma with_defaults_lookup (m : gmap string pyobj) (key : string) :
  with_defaults m !! key =
  if decide (key = "description") then Some (default PyNone (m !! key))
  else if decide (key = "duration_minutes") then Some (default (PyInt 60) (m !! key))
  else if decide (key = "action") then Some (default (PyStr "create_event") (m !! key))
  else m !! key.
Proof.
  unfold with_defaults. rewrite !dict_setdefault_lookup.
  repeat case_decide; subst; try done.
Qed.

Lemma with_defaults_present (m : gmap string pyobj) (key : string) (v : pyobj) :
  m !! key = Some v -> with_defaults m !! key = Some v.
Proof.
  intros Hm. rewrite with_defaults_lookup, Hm. by repeat case_decide.
Qed.

Lemma with_defaults_frame (m : gmap string pyobj) (key : string) :
  key <> "action" -> key <> "duration_minutes" -> key <> "description" ->
  with_defaults m !! key = m !! key.
Proof.
  intros. rewrite with_defaults_lookup. by repeat case_decide.
Qed.

Lemma set_defaults_dict (m : gmap string pyobj) (w : world) :
  set_defaults (PyDict m) w = (Return (PyDict (with_defaults m)), w).
Proof. reflexivity. Qed.

Lemma normalize_absent (m : gmap string pyobj) (w : world) :
  m !! "start_datetime" = None ->
  normalize_start_datetime env (PyDict m) w = (Return (PyDict m), w).
Proof.
  intros Hm. unfold normalize_start_datetime, bind, lift, ret. simpl.
  by rewrite Hm.
Qed.

Lemma normalize_parsed (m : gmap string pyobj) (v : pyobj) (d : datetime) (w : world) :
  m !! "start_datetime" = Some v ->
  parsed_start env v = Return d ->
  normalize_start_datetime env (PyDict m) w =
  (Return (PyDict (<["start_datetime" := PyDatetime d]> m)),
   mk_world (clock_reads w) (api_calls w) (parse_calls w ++ [v]) (log w)).
Proof.
  intros Hm Hp.
  unfold normalize_start_datetime, bind, lift, ret, try_except, parser_parse.
  simpl. rewrite Hm. simpl.
  unfold parsed_start in Hp.
  destruct (parser_parse_result env v) as [dt|e]; [|discriminate].
  unfold zoned in Hp. by rewrite Hp.
Qed.

Lemma normalize_unparsed (m : gmap string pyobj) (v : pyobj) (e : exception) (w : world) :
  m !! "start_datetime" = Some v ->
  parsed_start env v = Raise e ->
  normalize_start_datetime env (PyDict m) w =
  (Return (PyDict (<["start_datetime" :=
                      PyDatetime (fallback_start env (clock_reads w))]> m)),
   mk_world (S (clock_reads w)) (api_calls w) (parse_calls w ++ [v])
     (log w ++ [ErrorDateParse v e])).
Proof.
  intros Hm Hp.
  unfold normalize_start_datetime, bind, lift, ret, try_except, parser_parse.
  simpl. rewrite Hm. simpl.
  unfold parsed_start in Hp.
  destruct (parser_parse_result env v) as [dt|e0]; [|by injection Hp as ->].
  unfold zoned in Hp. by rewrite Hp.
Qed.

(** The [try] block up to and including [json.loads]. *)
Lemma try_block_unfold (text : string) (w : world) :
  extract_event_info_try env text w =
  match model_reply env text w with
  | Raise e => (Raise e, after_request env text w)
  | Return content =>
      match json_loads env content with
      | Raise e => (Raise e, after_request env text w)
      | Return obj =>
          (result <- normalize_start_datetime env obj ;;
           result <- set_defaults result ;;
           logger_write (InfoExtracted result) ;;;
           ret result) (after_request env text w)
      end
  end.
Proof.
  unfold extract_event_info_try, model_reply, after_request, request_of.
  unfold bind at 1. unfold _create_prompt, bind at 1. simpl.
  unfold bind at 1. unfold chat_completions_create at 1. simpl.
  destruct (completions env _ _) as [response|e]; [|done].
  unfold bind at 1, lift at 1.
  destruct (first_message_content response) as [content|e]; [|done].
  unfold bind at 1, lift at 1.
  by destruct (json_loads env content).
Qed.

End Unfolding.

Section Runs.

Context (env : Env).

Lemma run_without_start (text s : string) (m : gmap string pyobj) (w : world) :
  model_reply env text w = Return (Some s) ->
  json_decode env s = inr (PyDict m) ->
  m !! "start_datetime" = None ->
  extract_event_info env text w =
  (Return (PyDict (with_defaults m)),
   final_world env text w 1 [] [] (PyDict (with_defaults m))).
Proof.
  intros Hr Hd Hm. unfold extract_event_info, try_except.
  rewrite try_block_unfold, Hr. simpl. rewrite Hd.
  unfold bind at 1. rewrite (normalize_absent env m _ Hm).
  unfold final_world. simpl. by rewrite !app_nil_r.
Qed.

Lemma run_parsed (text s : string) (m : gmap string pyobj) (v : pyobj)
    (dt : datetime) (w : world) :
  model_reply env text w = Return (Some s) ->
  json_decode env s = inr (PyDict m) ->
  m !! "start_datetime" = Some v ->
  parsed_start env v = Return dt ->
  let result :=
    PyDict (with_defaults (<["start_datetime" := PyDatetime dt]> m)) in
  extract_event_info env text w = (Return result, final_world env text w 1 [v] [] result).
Proof.
  intros Hr Hd Hm Hp. unfold extract_event_info, try_except.
  rewrite try_block_unfold, Hr. simpl. rewrite Hd.
  unfold bind at 1. rewrite (normalize_parsed env m v dt _ Hm Hp).
  reflexivity.
Qed.

Lemma run_unparsed (text s : string) (m : gmap string pyobj) (v : pyobj)
    (e : exception) (w : world) :
  model_reply env text w = Return (Some s) ->
  json_decode env s = inr (PyDict m) ->
  m !! "start_datetime" = Some v ->
  parsed_start env v = Raise e ->
  let result :=
    PyDict (with_defaults
              (<["start_datetime" :=
                  PyDatetime (fallback_start env (S (clock_reads w)))]> m)) in
  extract_event_info env text w =
  (Return result, final_world env text w 2 [v] [ErrorDateParse v e] result).
Proof.
  intros Hr Hd Hm Hp. unfold extract_event_info, try_except.
  rewrite try_block_unfold, Hr. simpl. rewrite Hd.
  unfold bind at 1. rewrite (normalize_unparsed env m v e _ Hm Hp).
  unfold final_world. simpl. by rewrite <- !app_assoc.
Qed.

(** Every reply that decodes to a JSON object is accepted. *)
Lemma run_dict (text s : string) (m : gmap string pyobj) (w : world) :
  model_reply env text w = Return (Some s) ->
  json_decode env s = inr (PyDict m) ->
  fst (extract_event_info env text w) =
  Return (PyDict (with_defaults (normalized env m (clock_reads w)))).
Proof.
  intros Hr Hd. unfold normalized.
  destruct (m !! "start_datetime") as [v|] eqn:Hm.
  - destruct (parsed_start env v) as [dt|e] eqn:Hp.
    + by rewrite (run_parsed text s m v dt w Hr Hd Hm Hp).
    + by rewrite (run_unparsed text s m v e w Hr Hd Hm Hp).
  - by rewrite (run_without_start text s m w Hr Hd Hm).
Qed.

(** Both [except] clauses end in a [raise]. *)
Lemma except_raises (e : exception) (w : world) :
  exists e', fst (extract_event_info_except e w) = Raise e'.
Proof.
  unfold extract_event_info_except.
  destruct (is_JSONDecodeError e); eexists; reflexivity.
Qed.

(** A decoded reply that is not a dict does not get through lines 88-104. *)
Lemma not_a_dict_raises (obj : pyobj) (w : world) :
  (forall m, obj <> PyDict m) ->
  exists e,
    fst ((result <- normalize_start_datetime env obj ;;
          result <- set_defaults result ;;
          logger_write (InfoExtracted result) ;;;
          ret result) w) = Raise e.
Proof.
  intros Hobj.
  destruct obj as [| b | z | lit | s | l | m | d];
    try (eexists; reflexivity); [| | by destruct (Hobj m)].
  - unfold normalize_start_datetime, bind, lift. simpl.
    destruct (is_substring "start_datetime" s); eexists; reflexivity.
  - unfold normalize_start_datetime, bind, lift. simpl.
    destruct (existsb _ l); eexists; reflexivity.
Qed.

(** A call returns only on a reply that is a string decoding to a dict. *)
Lemma returns_only_on_dict (text : string) (w : world) (r : pyobj) :
  fst (extract_event_info env text w) = Return r ->
  exists s m,
    model_reply env text w = Return (Some s) /\
    json_decode env s = inr (PyDict m).
Proof.
  unfold extract_event_info, try_except. rewrite try_block_unfold.
  destruct (model_reply env text w) as [content|e] eqn:Hr.
  - destruct (json_loads env content) as [obj|e] eqn:Hj.
    + destruct content as [s|]; [|discriminate].
      simpl in Hj. destruct (json_decode env s) as [detail|obj'] eqn:Hd; [discriminate|].
      injection Hj as ->. intros H.
      assert (Hcase : (exists m, obj = PyDict m) \/ (forall m, obj <> PyDict m))
        by (destruct obj; eauto; right; discriminate).
      destruct Hcase as [[m ->] | Hn]; [by exists s, m|].
      destruct (not_a_dict_raises obj (after_request env text w) Hn) as [e He].
      revert H He.
      match goal with
      | |- context [let (_, _) := ?c in _] => destruct c as [[a|e0] w']
      end; simpl; [discriminate|].
      intros H _. destruct (except_raises e0 w') as [e' He']. congruence.
    + intros H. destruct (except_raises e (after_request env text w)) as [e' He'].
      congruence.
  - intros H. destruct (except_raises e (after_request env text w)) as [e' He'].
    congruence.
Qed.

End Runs.

(** ** The properties of [extract_event_info] *)

Section Properties.

Context (env : Env).

Lemma zoned_aware (dt d : datetime) :
  zoned env dt = Return d -> is_aware d = true.
Proof.
  unfold zoned, localize, is_aware.
  destruct (dt_tzinfo dt) as [tz|] eqn:Htz.
  - intros [= <-]. by rewrite Htz.
  - destruct (zone_offset_at_wall env (wall dt)); [|discriminate].
    by intros [= <-].
Qed.

Lemma parsed_start_aware (v : pyobj) (d : datetime) :
  parsed_start env v = Return d -> is_aware d = true.
Proof.
  unfold parsed_start.
  destruct (parser_parse_result env v) as [dt|e]; [|discriminate].
  apply zoned_aware.
Qed.

(** A failure of the parser is a failure of lines 92-94. *)
Lemma parsed_start_unparsed (v : pyobj) (e : exception) :
  parser_parse_result env v = Raise e -> parsed_start env v = Raise e.
Proof. intros Hp. unfold parsed_start. by rewrite Hp. Qed.

Lemma fallback_aware (n : nat) : is_aware (fallback_start env n) = true.
Proof. reflexivity. Qed.

Lemma with_defaults_start (m : gmap string pyobj) :
  with_defaults m !! "start_datetime" = m !! "start_datetime".
Proof. by apply with_defaults_frame. Qed.

(** What [normalized] holds under [start_datetime]. *)
Lemma normalized_start (m : gmap string pyobj) (reads : nat) :
  normalized env m reads !! "start_datetime" =
  match m !! "start_datetime" with
  | None => None
  | Some v =>
      Some (PyDatetime
              match parsed_start env v with
              | Return d => d
              | Raise _ => fallback_start env (S reads)
              end)
  end.
Proof.
  unfold normalized. destruct (m !! "start_datetime") as [v|] eqn:Hm; [|done].
  destruct (parsed_start env v); by rewrite lookup_insert_eq.
Qed.

(** The normalisation writes under [start_datetime] only. *)
Lemma normalized_frame (m : gmap string pyobj) (reads : nat) (key : string) :
  key <> "start_datetime" -> normalized env m reads !! key = m !! key.
Proof.
  intros Hk. unfold normalized.
  destruct (m !! "start_datetime") as [v|]; [|done].
  destruct (parsed_start env v); by rewrite lookup_insert_ne.
Qed.

(** *** start_datetime *)

(** C1, as amended. Whenever the call returns, the reply was a string that
    decodes to a JSON object, and if that object has a [start_datetime] key
    then the [start_datetime] of the returned record is an aware datetime:
    the parsed value, localized if it was naive, or the fallback, which is
    taken when the parser raises and also when the localization of a naive
    value raises. It is never left as the string of the reply. (Without the
    key the record has no [start_datetime].) *)
Theorem start_datetime_zoned_when_present (text : string) (w : world) (r : pyobj) :
  fst (extract_event_info env text w) = Return r ->
  exists s m,
    model_reply env text w = Return (Some s) /\
    json_decode env s = inr (PyDict m) /\
    match m !! "start_datetime" with
    | None => field r "start_datetime" = None
    | Some v =>
        exists d,
          field r "start_datetime" = Some (PyDatetime d) /\
          is_aware d = true /\
          match parser_parse_result env v with
          | Return dt =>
              match zoned env dt with
              | Return zoned_dt => d = zoned_dt
              | Raise _ => d = fallback_start env (S (clock_reads w))
              end
          | Raise _ => d = fallback_start env (S (clock_reads w))
          end
    end.
Proof.
  intros Hret.
  destruct (returns_only_on_dict env text w r Hret) as (s & m & Hr & Hd).
  exists s, m. split; [done|]. split; [done|].
  rewrite (run_dict env text s m w Hr Hd) in Hret. injection Hret as <-.
  simpl. rewrite with_defaults_start, normalized_start.
  destruct (m !! "start_datetime") as [v|]; [|done].
  eexists. split; [done|].
  pose proof (parsed_start_aware v) as Haware. unfold parsed_start in *.
  destruct (parser_parse_result env v) as [dt|e].
  - destruct (zoned env dt) as [d|e].
    + split; [by apply Haware | done].
    + split; [apply fallback_aware | done].
  - split; [apply fallback_aware | done].
Qed.

(** C2, as amended. When the reply has a [start_datetime] that the parser
    refuses, the call returns and [start_datetime] is a reading of the clock
    plus one day, with the zone of that reading: exactly 86400 seconds after
    it on the time line. The reading is the second one of the call, taken
    when the parser has failed; the prompt carries the first one. *)
Theorem unparsed_start_falls_back (text s : string) (m : gmap string pyobj)
    (v : pyobj) (e : exception) (w : world) :
  model_reply env text w = Return (Some s) ->
  json_decode env s = inr (PyDict m) ->
  m !! "start_datetime" = Some v ->
  parser_parse_result env v = Raise e ->
  exists r w',
    extract_event_info env text w = (Return r, w') /\
    field r "start_datetime" =
      Some (PyDatetime (datetime_add (datetime_now env (S (clock_reads w)))
                          (timedelta_days 1))) /\
    utc_instant (datetime_add (datetime_now env (S (clock_reads w)))
                   (timedelta_days 1)) =
      Some (system_clock env (S (clock_reads w)) + 86400 * 1000000) /\
    clock_reads w' = (2 + clock_reads w)%nat /\
    api_calls w' = (api_calls w ++ [request_of env text w])%list /\
    current_date_str (user_content (request_of env text w)) =
      strftime (datetime_now env (clock_reads w)) /\
    In (ErrorDateParse v e) (log w').
Proof.
  intros Hr Hd Hm Hp. apply parsed_start_unparsed in Hp.
  eexists _, _. split; [exact (run_unparsed env text s m v e w Hr Hd Hm Hp)|].
  split; [simpl; by rewrite with_defaults_start, lookup_insert_eq|].
  split; [unfold utc_instant; simpl; f_equal; lia|].
  split; [done|]. split; [done|]. split; [done|].
  simpl. rewrite in_app_iff. right. by left.
Qed.

(** C4, as amended. When the reply has a [start_datetime] string that the
    parser accepts, the call returns and [start_datetime] is an aware
    datetime. An aware parsed value is kept as it is. A naive one is handed
    to [localize]: when that returns, the value keeps its wall clock and gets
    the configured zone attached, so it is read as local time (its instant is
    the wall clock less the offset of the zone, not the wall clock itself);
    when that raises, as pytz does near the ends of the range of [datetime],
    the failure is caught like one of the parser and the fallback is stored
    in place of the parsed value. *)
Theorem parsed_start_kept_unless_localize_fails (text s ds : string)
    (m : gmap string pyobj) (dt : datetime) (w : world) :
  model_reply env text w = Return (Some s) ->
  json_decode env s = inr (PyDict m) ->
  m !! "start_datetime" = Some (PyStr ds) ->
  dateutil_parse env ds = Return dt ->
  exists r d,
    fst (extract_event_info env text w) = Return r /\
    field r "start_datetime" = Some (PyDatetime d) /\
    is_aware d = true /\
    match dt_tzinfo dt with
    | Some _ => d = dt
    | None =>
        match zone_offset_at_wall env (wall dt) with
        | Return off =>
            d = mk_datetime (wall dt) (Some (mk_tzinfo (TIMEZONE env) off)) /\
            utc_instant d = Some (wall dt - off * 1000000)
        | Raise _ => d = fallback_start env (S (clock_reads w))
        end
    end.
Proof.
  intros Hr Hd Hm Hp.
  assert (Hstart : parsed_start env (PyStr ds) = zoned env dt)
    by (unfold parsed_start; simpl; by rewrite Hp).
  assert (Hfield : forall d,
             with_defaults (<["start_datetime" := PyDatetime d]> m)
               !! "start_datetime" = Some (PyDatetime d))
    by (intros d; by rewrite with_defaults_start, lookup_insert_eq).
  unfold zoned, localize in Hstart.
  destruct (dt_tzinfo dt) as [tz|] eqn:Htz.
  - eexists _, dt.
    split; [by rewrite (run_parsed env text s m (PyStr ds) dt w Hr Hd Hm Hstart)|].
    split; [apply Hfield|]. split; [|done].
    unfold is_aware. by rewrite Htz.
  - destruct (zone_offset_at_wall env (wall dt)) as [off|e].
    + eexists _, _.
      split; [by rewrite (run_parsed env text s m (PyStr ds) _ w Hr Hd Hm Hstart)|].
      split; [apply Hfield|]. done.
    + eexists _, _.
      split; [by rewrite (run_unparsed env text s m (PyStr ds) e w Hr Hd Hm Hstart)|].
      split; [apply Hfield|]. done.
Qed.

(** *** The optional fields *)

(** C3, as amended. The returned [action] is [create_event] whenever the
    reply has no [action] key; an [action] that the reply gives is returned as
    given, whether it is one of the three known values or not. *)
Theorem action_defaults_when_absent (text s : string) (m : gmap string pyobj)
    (w : world) :
  model_reply env text w = Return (Some s) ->
  json_decode env s = inr (PyDict m) ->
  exists r,
    fst (extract_event_info env text w) = Return r /\
    (m !! "action" = None -> field r "action" = Some (PyStr "create_event")) /\
    (forall v, m !! "action" = Some v -> field r "action" = Some v).
Proof.
  intros Hr Hd. eexists. split; [exact (run_dict env text s m w Hr Hd)|].
  simpl. rewrite with_defaults_lookup, normalized_frame by done.
  repeat case_decide; try done.
  split; [by intros ->|by intros v ->].
Qed.

(** C7. A reply that decodes to a JSON object is accepted whichever of the
    optional fields it lacks, and each missing one gets its default whatever
    the others are: [action] becomes [create_event], [duration_minutes]
    becomes 60, [description] becomes [None]. *)
Theorem missing_fields_defaulted (text s : string) (m : gmap string pyobj)
    (w : world) :
  model_reply env text w = Return (Some s) ->
  json_decode env s = inr (PyDict m) ->
  exists r,
    fst (extract_event_info env text w) = Return r /\
    (m !! "action" = None -> field r "action" = Some (PyStr "create_event")) /\
    (m !! "duration_minutes" = None -> field r "duration_minutes" = Some (PyInt 60)) /\
    (m !! "description" = None -> field r "description" = Some PyNone).
Proof.
  intros Hr Hd. eexists. split; [exact (run_dict env text s m w Hr Hd)|].
  simpl. rewrite !with_defaults_lookup, !normalized_frame by done.
  repeat case_decide; try done.
  repeat split; by intros ->.
Qed.

(** C8. A value that the reply gives for [action], [duration_minutes] or
    [description] is returned as it is, whatever it is: [None], [0] and an
    unknown action included. *)
Theorem present_fields_not_overwritten (text s key : string)
    (m : gmap string pyobj) (v : pyobj) (w : world) :
  model_reply env text w = Return (Some s) ->
  json_decode env s = inr (PyDict m) ->
  key = "action" \/ key = "duration_minutes" \/ key = "description" ->
  m !! key = Some v ->
  exists r,
    fst (extract_event_info env text w) = Return r /\
    field r key = Some v.
Proof.
  intros Hr Hd Hk Hm. eexists. split; [exact (run_dict env text s m w Hr Hd)|].
  simpl. apply with_defaults_present.
  rewrite normalized_frame; [done|].
  by destruct Hk as [-> | [-> | ->]].
Qed.

(** The keys of a dict after lines 101-104. *)
Lemma with_defaults_dom (m : gmap string pyobj) :
  dom (with_defaults m) =
  dom m ∪ {["action"; "duration_minutes"; "description"]}.
Proof.
  apply set_eq. intros key.
  rewrite elem_of_union, !elem_of_dom, with_defaults_lookup.
  rewrite !elem_of_union, !elem_of_singleton.
  repeat case_decide; subst; split; eauto.
  all: intros [Hin | [[Hin | Hin] | Hin]]; done.
Qed.

(** C9. A reply that decodes to a JSON object without a [start_datetime] key
    is accepted; the date parser is not called, the clock is read once (for
    the prompt), no date failure is logged, and the returned record has no
    [start_datetime]: it is the decoded object with the three defaults, and
    its keys are those of the reply and the three defaulted ones. *)
Theorem absent_start_stays_absent (text s : string) (m : gmap string pyobj)
    (w : world) :
  model_reply env text w = Return (Some s) ->
  json_decode env s = inr (PyDict m) ->
  m !! "start_datetime" = None ->
  exists w',
    extract_event_info env text w = (Return (PyDict (with_defaults m)), w') /\
    field (PyDict (with_defaults m)) "start_datetime" = None /\
    dom (with_defaults m) =
      dom m ∪ {["action"; "duration_minutes"; "description"]} /\
    parse_calls w' = parse_calls w /\
    clock_reads w' = S (clock_reads w) /\
    log w' = (log w ++ [InfoExtracted (PyDict (with_defaults m))])%list.
Proof.
  intros Hr Hd Hm.
  eexists. split; [exact (run_without_start env text s m w Hr Hd Hm)|].
  split; [simpl; by rewrite with_defaults_start|].
  split; [apply with_defaults_dom|].
  split; [simpl; by rewrite app_nil_r|]. done.
Qed.

(** C10. Every field of the reply other than [start_datetime], [action],
    [duration_minutes] and [description] is in the returned record exactly as
    decoded, and no other such field is added: [summary] and fields outside
    the schema pass through, and a missing [summary] stays missing. *)
Theorem other_fields_pass_through (text s : string) (m : gmap string pyobj)
    (w : world) :
  model_reply env text w = Return (Some s) ->
  json_decode env s = inr (PyDict m) ->
  exists r,
    fst (extract_event_info env text w) = Return r /\
    (forall key,
       key <> "start_datetime" -> key <> "action" ->
       key <> "duration_minutes" -> key <> "description" ->
       field r key = m !! key) /\
    field r "summary" = m !! "summary".
Proof.
  intros Hr Hd. eexists. split; [exact (run_dict env text s m w Hr Hd)|].
  assert (Hframe : forall key,
             key <> "start_datetime" -> key <> "action" ->
             key <> "duration_minutes" -> key <> "description" ->
             with_defaults (normalized env m (clock_reads w)) !! key = m !! key).
  { intros key H1 H2 H3 H4.
    by rewrite with_defaults_frame, normalized_frame. }
  split; [exact Hframe|]. by apply Hframe.
Qed.

(** *** Failures *)




End Properties.

(** ** The properties on concrete runs *)

Import Scenario.

(** The last wall clock of [datetime] is 9999-12-31T23:59:59.999999. *)
Example datetime_max_is_last_microsecond :
  datetime_max_wall = wall_clock 9999 12 31 23 59 59 + 999999.
Proof. reflexivity. Qed.

(** The first scenario of the specification: the meeting of tomorrow, 15:00. *)
Example meeting_run :
  exists r,
    fst (extract_event_info meeting_env user_text idle) = Return r /\
    field r "action" = Some (PyStr "create_event") /\
    field r "summary" = Some (PyStr "Встреча с клиентом") /\
    field r "start_datetime" =
      Some (PyDatetime (mk_datetime (wall_clock 2025 1 15 15 0 0) (Some moscow))) /\
    field r "duration_minutes" = Some (PyInt 60) /\
    field r "description" = Some PyNone.
Proof. eexists. repeat split; vm_compute; reflexivity. Qed.

(** A reply that is valid JSON but no object is refused with the exception of
    the first operation that needs a dict. *)
Example list_reply_refused :
  fst (extract_event_info
         (environment nine_o_clock_utc 2000000 (replies "[]")
            (decodes "[]" (PyList [])) (parses []))
         user_text idle) =
  Raise (mk_exception AttributeError "setdefault").
Proof. vm_compute. reflexivity. Qed.

(** C1, the claim as stated fails: the empty object is accepted, and the
    returned record has no [start_datetime]. *)
Lemma accepted_reply_without_start :
  exists r,
    fst (extract_event_info empty_env user_text idle) = Return r /\
    field r "start_datetime" = None /\
    ~ (exists d, field r "start_datetime" = Some (PyDatetime d) /\ is_aware d = true).
Proof.
  eexists. split; [vm_compute; reflexivity|].
  split; [vm_compute; reflexivity|].
  intros [d [Hd _]]. vm_compute in Hd. discriminate.
Qed.

Lemma start_datetime_zoned_when_present_witness :
  let r := PyDict (with_defaults (normalized meeting_env meeting_dict 0)) in
  fst (extract_event_info meeting_env user_text idle) = Return r /\
  exists s m,
    model_reply meeting_env user_text idle = Return (Some s) /\
    json_decode meeting_env s = inr (PyDict m) /\
    match m !! "start_datetime" with
    | None => field r "start_datetime" = None
    | Some v =>
        exists d,
          field r "start_datetime" = Some (PyDatetime d) /\
          is_aware d = true /\
          match parser_parse_result meeting_env v with
          | Return dt =>
              match zoned meeting_env dt with
              | Return zoned_dt => d = zoned_dt
              | Raise _ => d = fallback_start meeting_env (S (clock_reads idle))
              end
          | Raise _ => d = fallback_start meeting_env (S (clock_reads idle))
          end
    end.
Proof.
  intros r.
  assert (Hret : fst (extract_event_info meeting_env user_text idle) = Return r)
    by (vm_compute; reflexivity).
  split; [exact Hret|].
  exact (start_datetime_zoned_when_present meeting_env user_text idle r Hret).
Defined.

(** C2, the claim as stated fails: with two seconds between the reading of
    the clock for the prompt (09:00:00) and the failure of the parser, the
    fallback is 09:00:02 of the next day, not the prompt's instant plus one
    day. *)
Lemma fallback_is_not_prompt_time_plus_one_day :
  exists r e,
    parser_parse_result not_a_date_env (PyStr "not-a-date") = Raise e /\
    fst (extract_event_info not_a_date_env user_text idle) = Return r /\
    datetime_now not_a_date_env (clock_reads idle) =
      mk_datetime (wall_clock 2025 1 14 9 0 0) (Some moscow) /\
    field r "start_datetime" =
      Some (PyDatetime (mk_datetime (wall_clock 2025 1 15 9 0 2) (Some moscow))) /\
    field r "start_datetime" <>
      Some (PyDatetime (datetime_add (datetime_now not_a_date_env (clock_reads idle))
                          (timedelta_days 1))).
Proof.
  eexists _, _. split; [vm_compute; reflexivity|].
  split; [vm_compute; reflexivity|].
  split; [vm_compute; reflexivity|].
  split; [vm_compute; reflexivity|].
  vm_compute. discriminate.
Qed.

Lemma unparsed_start_falls_back_witness :
  exists r w',
    extract_event_info not_a_date_env user_text idle = (Return r, w') /\
    field r "start_datetime" =
      Some (PyDatetime (datetime_add (datetime_now not_a_date_env (S (clock_reads idle)))
                          (timedelta_days 1))) /\
    utc_instant (datetime_add (datetime_now not_a_date_env (S (clock_reads idle)))
                   (timedelta_days 1)) =
      Some (system_clock not_a_date_env (S (clock_reads idle)) + 86400 * 1000000) /\
    clock_reads w' = (2 + clock_reads idle)%nat /\
    api_calls w' = (api_calls idle ++ [request_of not_a_date_env user_text idle])%list /\
    current_date_str (user_content (request_of not_a_date_env user_text idle)) =
      strftime (datetime_now not_a_date_env (clock_reads idle)) /\
    In (ErrorDateParse (PyStr "not-a-date")
          (mk_exception ParserError "Unknown string format")) (log w').
Proof.
  apply (unparsed_start_falls_back not_a_date_env user_text not_a_date_text
           not_a_date_dict (PyStr "not-a-date")
           (mk_exception ParserError "Unknown string format") idle);
    vm_compute; reflexivity.
Defined.

(** C3, the claim as stated fails: an action outside the three known values
    is returned as the reply gave it, not replaced by [create_event]. *)
Lemma unrecognized_action_is_kept :
  exists r,
    archive_dict !! "action" = Some (PyStr "archive_event") /\
    fst (extract_event_info archive_env user_text idle) = Return r /\
    field r "action" = Some (PyStr "archive_event") /\
    field r "action" <> Some (PyStr "create_event").
Proof.
  eexists. split; [vm_compute; reflexivity|].
  split; [vm_compute; reflexivity|].
  split; [vm_compute; reflexivity|].
  vm_compute. discriminate.
Qed.

Lemma action_defaults_when_absent_witness :
  exists r,
    fst (extract_event_info empty_env user_text idle) = Return r /\
    ((∅ : gmap string pyobj) !! "action" = None ->
     field r "action" = Some (PyStr "create_event")) /\
    (forall v, (∅ : gmap string pyobj) !! "action" = Some v ->
               field r "action" = Some v).
Proof.
  apply (action_defaults_when_absent empty_env user_text empty_text ∅ idle);
    vm_compute; reflexivity.
Defined.

(** C4, the claim as stated fails: the parser accepts the first instant of
    [datetime], 0001-01-01T00:00:00, but [localize] raises on it, and the
    returned [start_datetime] is the fallback (the next day, 09:00:02), not
    the parsed value. *)
Lemma parsed_start_replaced_when_localize_fails :
  exists r,
    year_one_dict !! "start_datetime" = Some (PyStr "0001-01-01T00:00:00") /\
    dateutil_parse year_one_env "0001-01-01T00:00:00" = Return (naive 1 1 1 0 0 0) /\
    fst (extract_event_info year_one_env user_text idle) = Return r /\
    field r "start_datetime" =
      Some (PyDatetime (mk_datetime (wall_clock 2025 1 15 9 0 2) (Some moscow))) /\
    ~ (exists d, field r "start_datetime" = Some (PyDatetime d) /\
                 wall d = wall (naive 1 1 1 0 0 0)).
Proof.
  eexists. split; [vm_compute; reflexivity|].
  split; [vm_compute; reflexivity|].
  split; [vm_compute; reflexivity|].
  split; [vm_compute; reflexivity|].
  intros [d [Hd Hwall]]. vm_compute in Hd. injection Hd as <-.
  vm_compute in Hwall. discriminate.
Qed.

Lemma parsed_start_kept_unless_localize_fails_witness :
  exists r d,
    fst (extract_event_info meeting_env user_text idle) = Return r /\
    field r "start_datetime" = Some (PyDatetime d) /\
    is_aware d = true /\
    match dt_tzinfo (naive 2025 1 15 15 0 0) with
    | Some _ => d = naive 2025 1 15 15 0 0
    | None =>
        match zone_offset_at_wall meeting_env (wall (naive 2025 1 15 15 0 0)) with
        | Return off =>
            d = mk_datetime (wall (naive 2025 1 15 15 0 0))
                  (Some (mk_tzinfo (TIMEZONE meeting_env) off)) /\
            utc_instant d = Some (wall (naive 2025 1 15 15 0 0) - off * 1000000)
        | Raise _ => d = fallback_start meeting_env (S (clock_reads idle))
        end
    end.
Proof.
  apply (parsed_start_kept_unless_localize_fails meeting_env user_text meeting_text
           "2025-01-15T15:00:00" meeting_dict (naive 2025 1 15 15 0 0) idle);
    vm_compute; reflexivity.
Defined.



Lemma missing_fields_defaulted_witness :
  exists r,
    fst (extract_event_info empty_env user_text idle) = Return r /\
    ((∅ : gmap string pyobj) !! "action" = None ->
     field r "action" = Some (PyStr "create_event")) /\
    ((∅ : gmap string pyobj) !! "duration_minutes" = None ->
     field r "duration_minutes" = Some (PyInt 60)) /\
    ((∅ : gmap string pyobj) !! "description" = None ->
     field r "description" = Some PyNone).
Proof.
  apply (missing_fields_defaulted empty_env user_text empty_text ∅ idle);
    vm_compute; reflexivity.
Defined.

(** An explicit [duration_minutes] of 0 stays 0. *)
Lemma present_fields_not_overwritten_witness :
  exists r,
    fst (extract_event_info explicit_env user_text idle) = Return r /\
    field r "duration_minutes" = Some (PyInt 0).
Proof.
  apply (present_fields_not_overwritten explicit_env user_text explicit_text
           "duration_minutes" explicit_dict (PyInt 0) idle);
    [vm_compute; reflexivity | vm_compute; reflexivity
    | right; left; reflexivity | vm_compute; reflexivity].
Defined.

(** An explicit [description] of [null] stays [None], an action is kept. *)
Example explicit_run :
  exists r,
    fst (extract_event_info explicit_env user_text idle) = Return r /\
    field r "description" = Some PyNone /\
    field r "action" = Some (PyStr "delete_event") /\
    field r "location" = Some (PyStr "office") /\
    field r "summary" = None /\
    field r "start_datetime" = None.
Proof. eexists. repeat split; vm_compute; reflexivity. Qed.

Lemma absent_start_stays_absent_witness :
  exists w',
    extract_event_info explicit_env user_text idle =
      (Return (PyDict (with_defaults explicit_dict)), w') /\
    field (PyDict (with_defaults explicit_dict)) "start_datetime" = None /\
    dom (with_defaults explicit_dict) =
      dom explicit_dict ∪ {["action"; "duration_minutes"; "description"]} /\
    parse_calls w' = parse_calls idle /\
    clock_reads w' = S (clock_reads idle) /\
    log w' = (log idle ++ [InfoExtracted (PyDict (with_defaults explicit_dict))])%list.
Proof.
  apply (absent_start_stays_absent explicit_env user_text explicit_text
           explicit_dict idle);
    vm_compute; reflexivity.
Defined.

Lemma other_fields_pass_through_witness :
  exists r,
    fst (extract_event_info explicit_env user_text idle) = Return r /\
    (forall key,
       key <> "start_datetime" -> key <> "action" ->
       key <> "duration_minutes" -> key <> "description" ->
       field r key = explicit_dict !! key) /\
    field r "summary" = explicit_dict !! "summary".
Proof.
  apply (other_fields_pass_through explicit_env user_text explicit_text
           explicit_dict idle);
    vm_compute; reflexivity.
Defined.

(** ** The call as a whole *)

Section Coverage.

Context (env : Env).

(** What the two [except] clauses do with an exception. *)
Lemma except_outcome (e : exception) (w : world) :
  extract_event_info_except e w =
  (Raise (if is_JSONDecodeError e
          then mk_exception ValueError could_not_process else e),
   mk_world (clock_reads w) (api_calls w) (parse_calls w)
     (log w ++ [if is_JSONDecodeError e then ErrorJSON e else ErrorProcessing e])).
Proof.
  unfold extract_event_info_except. by destruct (is_JSONDecodeError e).
Qed.

(** A decoded reply that is no dict fails in lines 88-104 with a [TypeError]
    or an [AttributeError], before any effect. *)
Lemma not_a_dict_outcome (obj : pyobj) (w : world) :
  (forall m, obj <> PyDict m) ->
  exists e,
    (result <- normalize_start_datetime env obj ;;
     result <- set_defaults result ;;
     logger_write (InfoExtracted result) ;;;
     ret result) w = (Raise e, w) /\
    (exc_type e = TypeError \/ exc_type e = AttributeError).
Proof.
  intros Hobj.
  destruct obj as [| b | z | lit | s | l | m | d];
    try (eexists; split; [reflexivity | by left]).
  - unfold normalize_start_datetime, bind, lift. simpl.
    destruct (is_substring "start_datetime" s);
      eexists; (split; [reflexivity|]); [by left | by right].
  - unfold normalize_start_datetime, bind, lift. simpl.
    destruct (existsb _ l);
      eexists; (split; [reflexivity|]); [by left | by right].
  - by destruct (Hobj m).
Qed.

(** The two ways of a call: the reply decodes to a dict, or the [try] block
    raises once the request is sent and before anything else happens. *)
Lemma call_cases (text : string) (w : world) :
  (exists s m,
     model_reply env text w = Return (Some s) /\
     json_decode env s = inr (PyDict m)) \/
  (exists e,
     extract_event_info_try env text w = (Raise e, after_request env text w)).
Proof.
  rewrite try_block_unfold.
  destruct (model_reply env text w) as [content|e]; [|right; by exists e].
  destruct content as [s|]; [|right; eexists; reflexivity].
  simpl. destruct (json_decode env s) as [detail|obj] eqn:Hd;
    [right; eexists; reflexivity|].
  assert (Hcase : (exists m, obj = PyDict m) \/ (forall m, obj <> PyDict m))
    by (destruct obj; eauto; right; discriminate).
  destruct Hcase as [[m ->] | Hn]; [left; by exists s, m|].
  destruct (not_a_dict_outcome obj (after_request env text w) Hn) as (e & He & _).
  right. by exists e.
Qed.

(** A failure of the [try] block, seen from the caller. *)
Lemma failed_call (text : string) (w : world) (e : exception) :
  extract_event_info_try env text w = (Raise e, after_request env text w) ->
  extract_event_info env text w =
  (Raise (if is_JSONDecodeError e
          then mk_exception ValueError could_not_process else e),
   mk_world (S (clock_reads w)) (api_calls w ++ [request_of env text w])
     (parse_calls w)
     (log w ++ [if is_JSONDecodeError e then ErrorJSON e else ErrorProcessing e])).
Proof.
  intros Htry. unfold extract_event_info, try_except.
  by rewrite Htry, except_outcome.
Qed.

(** Splits a call on a dict reply into its three runs. *)
Ltac split_runs env text s m w Hr Hd :=
  let v := fresh "v" in
  let dt := fresh "dt" in
  let e := fresh "e" in
  let Hm := fresh "Hm" in
  let Hp := fresh "Hp" in
  destruct (m !! "start_datetime") as [v|] eqn:Hm;
  [ destruct (parsed_start env v) as [dt|e] eqn:Hp;
    [ rewrite (run_parsed env text s m v dt w Hr Hd Hm Hp)
    | rewrite (run_unparsed env text s m v e w Hr Hd Hm Hp) ]
  | rewrite (run_without_start env text s m w Hr Hd Hm) ].

(** *** Replies that are refused *)

(** X1. A reply that is valid JSON but no object (a list, a string, a number,
    a boolean, null) is refused: the call raises the [TypeError] or
    [AttributeError] of the first operation that needs a dict, unchanged, and
    not the [ValueError] about rephrasing. *)
Theorem non_object_reply_refused (text s : string) (obj : pyobj) (w : world) :
  model_reply env text w = Return (Some s) ->
  json_decode env s = inr obj ->
  (forall m, obj <> PyDict m) ->
  exists e,
    extract_event_info env text w =
    (Raise e,
     mk_world (S (clock_reads w)) (api_calls w ++ [request_of env text w])
       (parse_calls w) (log w ++ [ErrorProcessing e])) /\
    (exc_type e = TypeError \/ exc_type e = AttributeError).
Proof.
  intros Hr Hd Hn.
  destruct (not_a_dict_outcome obj (after_request env text w) Hn) as (e & He & Hcls).
  exists e. split; [|done].
  assert (Htry : extract_event_info_try env text w =
                 (Raise e, after_request env text w)).
  { rewrite try_block_unfold, Hr. simpl. by rewrite Hd. }
  rewrite (failed_call text w e Htry).
  assert (Hno : is_JSONDecodeError e = false)
    by (unfold is_JSONDecodeError; destruct Hcls as [-> | ->]; done).
  by rewrite Hno.
Qed.

(** X2. A response whose first choice has no content ([content] is [None])
    makes the call raise the [TypeError] of [json.loads], unchanged. *)
Theorem missing_content_refused (text : string) (w : world) :
  model_reply env text w = Return None ->
  exists e,
    extract_event_info env text w =
    (Raise e,
     mk_world (S (clock_reads w)) (api_calls w ++ [request_of env text w])
       (parse_calls w) (log w ++ [ErrorProcessing e])) /\
    exc_type e = TypeError.
Proof.
  intros Hr.
  assert (Htry : exists e,
             extract_event_info_try env text w = (Raise e, after_request env text w) /\
             exc_type e = TypeError)
    by (rewrite try_block_unfold, Hr; by eexists).
  destruct Htry as (e & Htry & Hcls). exists e. split; [|done].
  rewrite (failed_call text w e Htry). unfold is_JSONDecodeError. by rewrite Hcls.
Qed.

(** X3. A response without choices makes the call raise the [IndexError] of
    [choices[0]], unchanged. *)
Theorem no_choice_refused (text : string) (w : world) (response : chat_response) :
  completions env (length (api_calls w)) (request_of env text w) = Return response ->
  choices response = [] ->
  exists e,
    extract_event_info env text w =
    (Raise e,
     mk_world (S (clock_reads w)) (api_calls w ++ [request_of env text w])
       (parse_calls w) (log w ++ [ErrorProcessing e])) /\
    exc_type e = IndexError.
Proof.
  intros Hcall Hnone.
  assert (Htry : exists e,
             extract_event_info_try env text w = (Raise e, after_request env text w) /\
             exc_type e = IndexError).
  { rewrite try_block_unfold. unfold model_reply, first_message_content.
    rewrite Hcall, Hnone. by eexists. }
  destruct Htry as (e & Htry & Hcls). exists e. split; [|done].
  rewrite (failed_call text w e Htry). unfold is_JSONDecodeError. by rewrite Hcls.
Qed.

(** X4. Whatever happens, the call never raises a [JSONDecodeError]. *)
Theorem never_raises_JSONDecodeError (text : string) (w : world) (e : exception) :
  fst (extract_event_info env text w) = Raise e ->
  is_JSONDecodeError e = false.
Proof.
  intros Hraise.
  destruct (call_cases text w) as [(s & m & Hr & Hd) | (e0 & Htry)].
  - by rewrite (run_dict env text s m w Hr Hd) in Hraise.
  - rewrite (failed_call text w e0 Htry) in Hraise. simpl in Hraise.
    destruct (is_JSONDecodeError e0) eqn:Hcls; injection Hraise as <-; done.
Qed.

(** X5. The first [except] clause selects by class, not by origin: a
    [JSONDecodeError] raised by the call to the endpoint is replaced by the
    [ValueError] about rephrasing like one of [json.loads]. *)
Theorem endpoint_decode_error_translated (text : string) (w : world) (e : exception) :
  completions env (length (api_calls w)) (request_of env text w) = Raise e ->
  is_JSONDecodeError e = true ->
  extract_event_info env text w =
  (Raise (mk_exception ValueError could_not_process),
   mk_world (S (clock_reads w)) (api_calls w ++ [request_of env text w])
     (parse_calls w) (log w ++ [ErrorJSON e])).
Proof.
  intros Hcall Hcls.
  assert (Htry : extract_event_info_try env text w =
                 (Raise e, after_request env text w)).
  { rewrite try_block_unfold. unfold model_reply. by rewrite Hcall. }
  by rewrite (failed_call text w e Htry), Hcls.
Qed.

(** *** The effects of a call *)

(** X6. Every call sends exactly one request to the endpoint, whether it
    returns or raises: the request of the prompt built at its start. *)
Theorem one_request_per_call (text : string) (w : world) :
  api_calls (snd (extract_event_info env text w)) =
  (api_calls w ++ [request_of env text w])%list.
Proof.
  destruct (call_cases text w) as [(s & m & Hr & Hd) | (e0 & Htry)].
  - split_runs env text s m w Hr Hd; reflexivity.
  - by rewrite (failed_call text w e0 Htry).
Qed.

(** X7. A call reads the clock once, for the prompt, or twice; twice only
    when it returns after logging a date that did not parse. *)
Theorem clock_read_once_or_twice (text : string) (w : world) :
  clock_reads (snd (extract_event_info env text w)) = S (clock_reads w) \/
  (clock_reads (snd (extract_event_info env text w)) = S (S (clock_reads w)) /\
   exists r v e,
     fst (extract_event_info env text w) = Return r /\
     log (snd (extract_event_info env text w)) =
       (log w ++ [ErrorDateParse v e; InfoExtracted r])%list).
Proof.
  destruct (call_cases text w) as [(s & m & Hr & Hd) | (e0 & Htry)].
  - split_runs env text s m w Hr Hd; [by left | | by left].
    right. split; [done|]. eexists _, _, _. split; reflexivity.
  - left. by rewrite (failed_call text w e0 Htry).
Qed.

(** X8. A call only appends to the log, and the last record tells how it
    ended: the returned record itself after a return (preceded by at most
    one date failure), the cause after a raise. The cause is the exception
    raised, unless it is a [JSONDecodeError] replaced by the [ValueError]. *)
Theorem log_ends_with_outcome (text : string) (w : world) :
  match fst (extract_event_info env text w) with
  | Return r =>
      exists before,
        log (snd (extract_event_info env text w)) =
          (log w ++ before ++ [InfoExtracted r])%list /\
        (before = [] \/ exists v e, before = [ErrorDateParse v e])
  | Raise e =>
      log (snd (extract_event_info env text w)) = (log w ++ [ErrorProcessing e])%list \/
      exists cause,
        is_JSONDecodeError cause = true /\
        e = mk_exception ValueError could_not_process /\
        log (snd (extract_event_info env text w)) = (log w ++ [ErrorJSON cause])%list
  end.
Proof.
  destruct (call_cases text w) as [(s & m & Hr & Hd) | (e0 & Htry)].
  - split_runs env text s m w Hr Hd; simpl.
    + exists []. split; [done | by left].
    + eexists [_]. split; [done | right; by eexists _, _].
    + exists []. split; [done | by left].
  - rewrite (failed_call text w e0 Htry). simpl.
    destruct (is_JSONDecodeError e0) eqn:Hcls; [right; by exists e0 | by left].
Qed.

(** X9. The date parser is called at most once in a call: once, on the value
    under [start_datetime], when the reply object has that key, and not at
    all when it has not. *)
Theorem parser_called_on_start_only (text s : string) (m : gmap string pyobj)
    (w : world) :
  model_reply env text w = Return (Some s) ->
  json_decode env s = inr (PyDict m) ->
  parse_calls (snd (extract_event_info env text w)) =
  (parse_calls w ++ match m !! "start_datetime" with
                    | Some v => [v]
                    | None => []
                    end)%list.
Proof.
  intros Hr Hd. split_runs env text s m w Hr Hd; reflexivity.
Qed.

(** *** The returned record *)

(** The normalisation replaces a value, it adds no key. *)
Lemma normalized_dom (m : gmap string pyobj) (reads : nat) :
  dom (normalized env m reads) = dom m.
Proof.
  unfold normalized. destruct (m !! "start_datetime") as [v|] eqn:Hm; [|done].
  apply elem_of_dom_2 in Hm.
  destruct (parsed_start env v); rewrite dom_insert_L;
    apply set_eq; intros key; rewrite elem_of_union, elem_of_singleton;
    (split; [intros [-> | Hin]; done | by right]).
Qed.

(** X10. The keys of a returned record are the keys of the reply object and
    [action], [duration_minutes], [description]: no key of the reply is
    dropped, the three optional fields are always there, and
    [start_datetime] is there exactly when the reply had it. *)
Theorem returned_record_keys (text s : string) (m : gmap string pyobj) (w : world) :
  model_reply env text w = Return (Some s) ->
  json_decode env s = inr (PyDict m) ->
  exists r,
    fst (extract_event_info env text w) = Return (PyDict r) /\
    dom r = dom m ∪ {["action"; "duration_minutes"; "description"]}.
Proof.
  intros Hr Hd. eexists. split; [exact (run_dict env text s m w Hr Hd)|].
  by rewrite with_defaults_dom, normalized_dom.
Qed.

(** X11. A [start_datetime] that is no string ([null], a number, a list, an
    object) does not fail the call: the parser refuses it with a [TypeError],
    which is logged, and the fallback takes its place. *)
Theorem non_string_start_falls_back (text s : string) (m : gmap string pyobj)
    (v : pyobj) (w : world) :
  model_reply env text w = Return (Some s) ->
  json_decode env s = inr (PyDict m) ->
  m !! "start_datetime" = Some v ->
  (forall ds, v <> PyStr ds) ->
  exists r w' e,
    extract_event_info env text w = (Return r, w') /\
    field r "start_datetime" =
      Some (PyDatetime (fallback_start env (S (clock_reads w)))) /\
    exc_type e = TypeError /\
    log w' = (log w ++ [ErrorDateParse v e; InfoExtracted r])%list.
Proof.
  intros Hr Hd Hm Hv.
  assert (Hp : exists e, parser_parse_result env v = Raise e /\ exc_type e = TypeError).
  { destruct v; try (by eexists); by destruct (Hv s0). }
  destruct Hp as (e & Hp & Hcls). apply parsed_start_unparsed in Hp.
  eexists _, _, e. split; [exact (run_unparsed env text s m v e w Hr Hd Hm Hp)|].
  split; [simpl; by rewrite with_defaults_start, lookup_insert_eq|].
  split; [done|]. reflexivity.
Qed.

(** X12. Applying the defaults of lines 101-104 to a record that has them
    changes nothing. *)
Theorem set_defaults_idempotent (obj r : pyobj) (w w1 : world) :
  set_defaults obj w = (Return r, w1) ->
  set_defaults r w1 = (Return r, w1).
Proof.
  intros Hset.
  destruct obj as [| b | z | lit | s | l | m | d]; try discriminate.
  rewrite set_defaults_dict in Hset. injection Hset as <- <-.
  rewrite set_defaults_dict. do 3 f_equal.
  apply map_eq. intros key. rewrite !with_defaults_lookup.
  repeat case_decide; try done; by destruct (m !! key).
Qed.

(** X15. A failure of [localize] on a naive date that the parser accepted is
    handled like a failure of the parser: the call returns, the exception is
    logged with the string of the reply, the clock is read a second time and
    the fallback is stored. *)
Theorem failed_localize_is_logged (text s ds : string) (m : gmap string pyobj)
    (dt : datetime) (e : exception) (w : world) :
  model_reply env text w = Return (Some s) ->
  json_decode env s = inr (PyDict m) ->
  m !! "start_datetime" = Some (PyStr ds) ->
  dateutil_parse env ds = Return dt ->
  dt_tzinfo dt = None ->
  zone_offset_at_wall env (wall dt) = Raise e ->
  exists r w',
    extract_event_info env text w = (Return r, w') /\
    field r "start_datetime" =
      Some (PyDatetime (fallback_start env (S (clock_reads w)))) /\
    clock_reads w' = S (S (clock_reads w)) /\
    log w' = (log w ++ [ErrorDateParse (PyStr ds) e; InfoExtracted r])%list.
Proof.
  intros Hr Hd Hm Hp Htz Hloc.
  assert (Hstart : parsed_start env (PyStr ds) = Raise e).
  { unfold parsed_start. simpl. rewrite Hp. unfold zoned, localize.
    by rewrite Htz, Hloc. }
  eexists _, _.
  split; [exact (run_unparsed env text s m (PyStr ds) e w Hr Hd Hm Hstart)|].
  split; [simpl; by rewrite with_defaults_start, lookup_insert_eq|].
  split; reflexivity.
Qed.

End Coverage.

(** ** The call as a whole, on concrete runs *)

Lemma non_object_reply_refused_witness :
  exists e,
    extract_event_info number_env user_text idle =
    (Raise e,
     mk_world (S (clock_reads idle))
       (api_calls idle ++ [request_of number_env user_text idle])
       (parse_calls idle) (log idle ++ [ErrorProcessing e])) /\
    (exc_type e = TypeError \/ exc_type e = AttributeError).
Proof.
  apply (non_object_reply_refused number_env user_text "42" (PyInt 42) idle);
    [vm_compute; reflexivity | vm_compute; reflexivity | discriminate].
Defined.

Lemma missing_content_refused_witness :
  exists e,
    extract_event_info silent_env user_text idle =
    (Raise e,
     mk_world (S (clock_reads idle))
       (api_calls idle ++ [request_of silent_env user_text idle])
       (parse_calls idle) (log idle ++ [ErrorProcessing e])) /\
    exc_type e = TypeError.
Proof.
  apply (missing_content_refused silent_env user_text idle).
  vm_compute. reflexivity.
Defined.

Lemma no_choice_refused_witness :
  exists e,
    extract_event_info choiceless_env user_text idle =
    (Raise e,
     mk_world (S (clock_reads idle))
       (api_calls idle ++ [request_of choiceless_env user_text idle])
       (parse_calls idle) (log idle ++ [ErrorProcessing e])) /\
    exc_type e = IndexError.
Proof.
  apply (no_choice_refused choiceless_env user_text idle (mk_chat_response []));
    vm_compute; reflexivity.
Defined.

Lemma never_raises_JSONDecodeError_witness :
  fst (extract_event_info truncated_env user_text idle) =
    Raise (mk_exception ValueError could_not_process) /\
  is_JSONDecodeError (mk_exception ValueError could_not_process) = false.
Proof.
  assert (Hraise : fst (extract_event_info truncated_env user_text idle) =
                   Raise (mk_exception ValueError could_not_process))
    by (vm_compute; reflexivity).
  split; [exact Hraise|].
  exact (never_raises_JSONDecodeError truncated_env user_text idle _ Hraise).
Defined.

Lemma endpoint_decode_error_translated_witness :
  extract_event_info garbled_env user_text idle =
  (Raise (mk_exception ValueError could_not_process),
   mk_world (S (clock_reads idle))
     (api_calls idle ++ [request_of garbled_env user_text idle])
     (parse_calls idle) (log idle ++ [ErrorJSON garbled_error])).
Proof.
  apply (endpoint_decode_error_translated garbled_env user_text idle garbled_error);
    vm_compute; reflexivity.
Defined.

Lemma parser_called_on_start_only_witness :
  parse_calls (snd (extract_event_info meeting_env user_text idle)) =
  (parse_calls idle ++ match meeting_dict !! "start_datetime" with
                       | Some v => [v]
                       | None => []
                       end)%list.
Proof.
  apply (parser_called_on_start_only meeting_env user_text meeting_text
           meeting_dict idle);
    vm_compute; reflexivity.
Defined.

Lemma returned_record_keys_witness :
  exists r,
    fst (extract_event_info meeting_env user_text idle) = Return (PyDict r) /\
    dom r = dom meeting_dict ∪ {["action"; "duration_minutes"; "description"]}.
Proof.
  apply (returned_record_keys meeting_env user_text meeting_text meeting_dict idle);
    vm_compute; reflexivity.
Defined.

Lemma non_string_start_falls_back_witness :
  exists r w' e,
    extract_event_info null_date_env user_text idle = (Return r, w') /\
    field r "start_datetime" =
      Some (PyDatetime (fallback_start null_date_env (S (clock_reads idle)))) /\
    exc_type e = TypeError /\
    log w' = (log idle ++ [ErrorDateParse PyNone e; InfoExtracted r])%list.
Proof.
  apply (non_string_start_falls_back null_date_env user_text null_date_text
           null_date_dict PyNone idle);
    [vm_compute; reflexivity | vm_compute; reflexivity
    | vm_compute; reflexivity | discriminate].
Defined.

Lemma set_defaults_idempotent_witness :
  set_defaults (PyDict (with_defaults archive_dict)) idle =
  (Return (PyDict (with_defaults archive_dict)), idle).
Proof.
  apply (set_defaults_idempotent (PyDict archive_dict) _ idle idle).
  reflexivity.
Defined.

Lemma failed_localize_is_logged_witness :
  exists r w',
    extract_event_info year_one_env user_text idle = (Return r, w') /\
    field r "start_datetime" =
      Some (PyDatetime (fallback_start year_one_env (S (clock_reads idle)))) /\
    clock_reads w' = S (S (clock_reads idle)) /\
    log w' =
      (log idle ++ [ErrorDateParse (PyStr "0001-01-01T00:00:00")
                      (mk_exception OverflowError "date value out of range");
                    InfoExtracted r])%list.
Proof.
  apply (failed_localize_is_logged year_one_env user_text year_one_text
           "0001-01-01T00:00:00" year_one_dict (naive 1 1 1 0 0 0)
           (mk_exception OverflowError "date value out of range") idle);
    vm_compute; reflexivity.
Defined.
